(** * gvdb_render.h: the render-setup interface of GVDB Voxels

    The header [source/gvdb_library/src/gvdb_render.h] consists of the 23
    uniform slot macros and, under [#ifdef BUILD_OPENGL], the prototypes of
    the OpenGL render-setup functions and shader factories.

    The first part of this development embeds the header itself: its macros
    as constants, its lines as a syntax tree, and the conditional inclusion
    performed by the C preprocessor as a function over that tree.  The second
    part models the behaviour of the declared functions, whose bodies are
    not part of the header. *)

From stdpp Require Import gmap strings list.

Local Open Scope Z_scope.
Local Open Scope string_scope.
Local Open Scope list_scope.
Local Set Warnings "-register-all".

(** ** Uniform slot macros (gvdb_render.h, lines 14-36) *)

Definition UVIEW : Z := 0.
Definition UPROJ : Z := 1.
Definition UMODEL : Z := 2.
Definition UINVVIEW : Z := 3.
Definition ULIGHTPOS : Z := 4.
Definition UCAMPOS : Z := 5.
Definition UCAMDIMS : Z := 6.
Definition UCLRAMB : Z := 7.
Definition UCLRDIFF : Z := 8.
Definition UCLRSPEC : Z := 9.
Definition UTEX : Z := 10.
Definition UTEXRES : Z := 11.
Definition UW : Z := 12.
Definition USHADOWMASK : Z := 13.
Definition USHADOWSIZE : Z := 14.
Definition UEYELIGHT : Z := 15.
Definition UOVERTEX : Z := 16.
Definition UOVERSIZE : Z := 17.
Definition UVOLMIN : Z := 18.
Definition UVOLMAX : Z := 19.
Definition USAMPLES : Z := 20.
Definition UTEXMIN : Z := 21.
Definition UTEXMAX : Z := 22.

(** The slots in the order in which the header defines them. *)
Definition uniform_slots : list Z :=
  [ UVIEW; UPROJ; UMODEL; UINVVIEW; ULIGHTPOS; UCAMPOS; UCAMDIMS;
    UCLRAMB; UCLRDIFF; UCLRSPEC; UTEX; UTEXRES; UW; USHADOWMASK;
    USHADOWSIZE; UEYELIGHT; UOVERTEX; UOVERSIZE; UVOLMIN; UVOLMAX;
    USAMPLES; UTEXMIN; UTEXMAX ].

(** The macro names, in the same order. *)
Definition slot_names : list string :=
  [ "UVIEW"; "UPROJ"; "UMODEL"; "UINVVIEW"; "ULIGHTPOS"; "UCAMPOS"; "UCAMDIMS";
    "UCLRAMB"; "UCLRDIFF"; "UCLRSPEC"; "UTEX"; "UTEXRES"; "UW"; "USHADOWMASK";
    "USHADOWSIZE"; "UEYELIGHT"; "UOVERTEX"; "UOVERSIZE"; "UVOLMIN"; "UVOLMAX";
    "USAMPLES"; "UTEXMIN"; "UTEXMAX" ].

(** ** The header as a syntax tree *)

Module Header.

(** C++ types as they occur in the prototypes.  The classes [Scene],
    [Matrix4F], [Vector3DF] and [Vector4DF] come from gvdb_scene.h and
    gvdb_vec.h; the header only names them. *)
Inductive ctype : Type :=
  | TVoid
  | TInt
  | TBool
  | TChar
  | TNamed (cls : string)
  | TConst (t : ctype)
  | TPtr (t : ctype).

#[global] Instance ctype_eq_dec : EqDecision ctype.
Proof. solve_decision. Defined.

Record param : Type := Param { p_type : ctype; p_name : string }.

#[global] Instance param_eq_dec : EqDecision param.
Proof. solve_decision. Defined.

(** A function prototype: [GVDB_API ret name ( params );].  [f_api] records
    the [GVDB_API] linkage macro, the only decoration a prototype carries. *)
Record fdecl : Type := FDecl {
  f_api : bool;
  f_ret : ctype;
  f_name : string;
  f_params : list param
}.

#[global] Instance fdecl_eq_dec : EqDecision fdecl.
Proof. solve_decision. Defined.

(** One line (or conditional group of lines) of the header. *)
Inductive line : Type :=
  | PragmaOnce
  | Include (system : bool) (file : string)
  | UsingNamespace (ns : string)
  | Define (name : string) (val : Z)
  | IfDef (flag : string) (body : list line)
  | Proto (d : fdecl).

Definition scene_ptr : ctype := TPtr (TNamed "Scene").
Definition matrix_ptr : ctype := TPtr (TNamed "Matrix4F").
Definition cstring : ctype := TPtr (TConst TChar).

Definition api (name : string) (ps : list param) : line :=
  Proto (FDecl true TVoid name ps).

(** Lines 14-36: the slot macros. *)
Definition slot_defines : list line :=
  [ Define "UVIEW" UVIEW;
    Define "UPROJ" UPROJ;
    Define "UMODEL" UMODEL;
    Define "UINVVIEW" UINVVIEW;
    Define "ULIGHTPOS" ULIGHTPOS;
    Define "UCAMPOS" UCAMPOS;
    Define "UCAMDIMS" UCAMDIMS;
    Define "UCLRAMB" UCLRAMB;
    Define "UCLRDIFF" UCLRDIFF;
    Define "UCLRSPEC" UCLRSPEC;
    Define "UTEX" UTEX;
    Define "UTEXRES" UTEXRES;
    Define "UW" UW;
    Define "USHADOWMASK" USHADOWMASK;
    Define "USHADOWSIZE" USHADOWSIZE;
    Define "UEYELIGHT" UEYELIGHT;
    Define "UOVERTEX" UOVERTEX;
    Define "UOVERSIZE" UOVERSIZE;
    Define "UVOLMIN" UVOLMIN;
    Define "UVOLMAX" UVOLMAX;
    Define "USAMPLES" USAMPLES;
    Define "UTEXMIN" UTEXMIN;
    Define "UTEXMAX" UTEXMAX ].

(** Lines 41-63: what the [BUILD_OPENGL] guard encloses. *)
Definition opengl_section : list line :=
  [ Include true "GL/glew.h";
    Include true "cudaGL.h";
    Include true "cuda_gl_interop.h";
    api "gchkGL" [ Param cstring "msg" ];
    api "renderCamSetupGL"
      [ Param scene_ptr "scene"; Param TInt "prog"; Param matrix_ptr "model" ];
    api "renderLightSetupGL"
      [ Param scene_ptr "scene"; Param TInt "prog" ];
    api "renderSceneGL"
      [ Param scene_ptr "scene"; Param TInt "prog" ];
    api "renderSceneGL"
      [ Param scene_ptr "scene"; Param TInt "prog"; Param TBool "bMat" ];
    api "renderSetTex3D"
      [ Param scene_ptr "scene"; Param TInt "prog"; Param TInt "tex";
        Param (TNamed "Vector3DF") "res" ];
    api "renderSetTex2D"
      [ Param scene_ptr "scene"; Param TInt "prog"; Param TInt "tex" ];
    api "renderSetMaterialGL"
      [ Param scene_ptr "scene"; Param TInt "prog";
        Param (TNamed "Vector4DF") "amb"; Param (TNamed "Vector4DF") "diff";
        Param (TNamed "Vector4DF") "spec" ];
    api "renderSetUW"
      [ Param scene_ptr "scene"; Param TInt "prog"; Param matrix_ptr "model";
        Param (TNamed "Vector3DF") "res" ];
    api "renderScreenspaceGL"
      [ Param scene_ptr "scene"; Param TInt "prog" ];
    api "makeSimpleShaderGL"
      [ Param scene_ptr "scene"; Param cstring "vertfile"; Param cstring "fragfile" ];
    api "makeSliceShader"
      [ Param scene_ptr "scene"; Param cstring "vertname"; Param cstring "fragname" ];
    api "makeOutlineShader"
      [ Param scene_ptr "scene"; Param cstring "vertname"; Param cstring "fragname" ];
    api "makeVoxelizeShader"
      [ Param scene_ptr "scene"; Param cstring "vertname"; Param cstring "fragname";
        Param cstring "geomname" ];
    api "makeRaycastShader"
      [ Param scene_ptr "scene"; Param cstring "vertname"; Param cstring "fragname" ];
    api "makeInstanceShader"
      [ Param scene_ptr "scene"; Param cstring "vertname"; Param cstring "fragname" ];
    api "makeScreenShader"
      [ Param scene_ptr "scene"; Param cstring "vertname"; Param cstring "fragname" ] ].

Definition gvdb_render_h : list line :=
  [ PragmaOnce;
    Include false "gvdb_vec.h";
    Include false "gvdb_scene.h";
    UsingNamespace "nvdb" ]
  ++ slot_defines
  ++ [ IfDef "BUILD_OPENGL" opengl_section ].

(** *** Preprocessing

    What a translation unit gets from the header: the object-like macros it
    defines, in order, the prototypes that survive conditional inclusion,
    and the remaining directives that survive ([#pragma once], [#include],
    [using namespace]), which declare nothing themselves.  [flags] is the
    set of macro names already defined when the header is entered (compiler
    command line and earlier headers). *)
Record unit_decls : Type := Decls {
  macros : list (string * Z);
  protos : list fdecl;
  directives : list line
}.

Definition no_decls : unit_decls := Decls [] [] [].

Definition is_defined (flags : gset string) (u : unit_decls) (name : string) : bool :=
  bool_decide (name ∈ flags) || bool_decide (name ∈ (macros u).*1).

Fixpoint cpp_line (flags : gset string) (l : line) (u : unit_decls) : unit_decls :=
  match l with
  | Define name val => Decls (macros u ++ [(name, val)]) (protos u) (directives u)
  | Proto d => Decls (macros u) (protos u ++ [d]) (directives u)
  | IfDef flag body =>
      if is_defined flags u flag
      then foldl (fun acc l' => cpp_line flags l' acc) u body
      else u
  | PragmaOnce | Include _ _ | UsingNamespace _ =>
      Decls (macros u) (protos u) (directives u ++ [l])
  end.

Definition cpp (flags : gset string) (file : list line) : unit_decls :=
  foldl (fun acc l => cpp_line flags l acc) no_decls file.

(** The declarations of gvdb_render.h seen under a given set of flags. *)
Definition interface (flags : gset string) : list fdecl :=
  protos (cpp flags gvdb_render_h).

Definition slot_macros (flags : gset string) : list (string * Z) :=
  macros (cpp flags gvdb_render_h).

Definition opengl_build : gset string := {[ "BUILD_OPENGL" ]}.

(** The directives outside and inside the [BUILD_OPENGL] guard. *)
Definition common_directives : list line :=
  [ PragmaOnce; Include false "gvdb_vec.h"; Include false "gvdb_scene.h";
    UsingNamespace "nvdb" ].

Definition opengl_directives : list line :=
  [ Include true "GL/glew.h"; Include true "cudaGL.h"; Include true "cuda_gl_interop.h" ].

(** *** Reading the prototypes *)

Definition names (ds : list fdecl) : list string := f_name <$> ds.

(** The shader factories are the prototypes called [make...]. *)
Definition is_factory (d : fdecl) : bool := String.prefix "make" (f_name d).

Definition factories (ds : list fdecl) : list fdecl := filter (fun d => is_factory d = true) ds.


Definition takes (t : ctype) (d : fdecl) : bool := bool_decide (t ∈ p_type <$> f_params d).

Definition decl_named (ds : list fdecl) (name : string) : list fdecl :=
  filter (fun d => f_name d = name) ds.

(** *** Arguments at a call site

    The values a caller can write for a parameter.  A pointer argument is
    either null or the address of an object; the type of a pointer parameter
    does not tell them apart.  Arguments are matched by their exact type:
    the implicit conversions of C++ are not modelled, so [has_type] accepts
    fewer calls than a compiler does, never more. *)
Inductive cval : Type :=
  | VInt (n : Z)
  | VBool (b : bool)
  | VObj (cls : string)
  | VPtr (addr : option Z).

Definition nullptr : cval := VPtr None.

Fixpoint has_type (v : cval) (t : ctype) : bool :=
  match t, v with
  | TInt, VInt _ => true
  | TChar, VInt _ => true
  | TBool, VBool _ => true
  | TNamed cls, VObj cls' => bool_decide (cls = cls')
  | TPtr _, VPtr _ => true
  | TConst t', _ => has_type v t'
  | _, _ => false
  end.

Fixpoint args_ok (ps : list param) (args : list cval) : bool :=
  match ps, args with
  | [], [] => true
  | p :: ps', v :: args' => has_type v (p_type p) && args_ok ps' args'
  | _, _ => false
  end.

(** A call [name(args)] compiles against the interface [ds] when some
    overload of that name takes arguments of these types. *)
Definition accepts (ds : list fdecl) (name : string) (args : list cval) : bool :=
  existsb (fun d => args_ok (f_params d) args) (decl_named ds name).

(** The prototypes a call [name(args)] can resolve to. *)
Definition candidates (ds : list fdecl) (name : string) (args : list cval) : list fdecl :=
  filter (fun d => args_ok (f_params d) args = true) (decl_named ds name).

(** What tells two prototypes of the header apart: name and parameter count. *)
Definition signature (d : fdecl) : string * nat := (f_name d, length (f_params d)).

(** The render setup prototypes are the ones called [render...]. *)
Definition is_render (d : fdecl) : bool := String.prefix "render" (f_name d).

(** *** Macro expansion

    The value the header's own [#define]s give an identifier: the last
    [#define] of that name in the header, if any.  (Names defined on the
    command line are in [flags], which carries no values.) *)
Fixpoint lookup_macro (name : string) (ms : list (string * Z)) : option Z :=
  match ms with
  | [] => None
  | (n, v) :: ms' =>
      match lookup_macro name ms' with
      | Some v' => Some v'
      | None => if decide (n = name) then Some v else None
      end
  end.

Definition macro_value (u : unit_decls) (name : string) : option Z :=
  lookup_macro name (macros u).

(** The identifier and keyword tokens of a prototype, the places where the
    preprocessor would expand a macro of the same name. *)
Fixpoint type_tokens (t : ctype) : list string :=
  match t with
  | TVoid => ["void"]
  | TInt => ["int"]
  | TBool => ["bool"]
  | TChar => ["char"]
  | TNamed cls => [cls]
  | TConst t' => "const" :: type_tokens t'
  | TPtr t' => type_tokens t'
  end.

Definition tokens (d : fdecl) : list string :=
  type_tokens (f_ret d) ++ [f_name d]
  ++ (f_params d ≫= fun p => type_tokens (p_type p) ++ [p_name p]).

(** Is a parameter declared with a pointer type? *)
Definition is_pointer (t : ctype) : bool :=
  match t with
  | TPtr _ => true
  | _ => false
  end.

(** The parameters of the interface that are pointers, by name. *)
Definition pointer_params : list string :=
  [ "scene"; "model"; "msg"; "vertfile"; "fragfile"; "vertname"; "fragname"; "geomname" ].

End Header.

(** * Behaviour of the declared functions

    The header gives prototypes only; the function bodies and the class
    Scene of gvdb_scene.h are defined elsewhere.  The definitions of this
    module follow the written specification of the interface (its sections
    3, 4 and 8) and are marked as such. *)

Module Render.

Inductive texdim : Type := Tex2D | Tex3D.

(** Modelled from the spec: the purposes under which a shader factory
    stores its program in the scene (class Scene of gvdb_scene.h). *)
Inductive purpose : Type :=
  | PSimple | PSlice | POutline | PVoxelize | PRaycast | PInstance | PScreen.

#[global] Instance purpose_eq_dec : EqDecision purpose.
Proof. solve_decision. Defined.

Section Model.

(** The matrix and vector classes of gvdb_vec.h are used as opaque values. *)
Context {Matrix4F Vector3DF Vector4DF : Type}.

(** Modelled from the spec: the values a uniform slot can hold (the
    uniform store of the graphics context). *)
Inductive uval : Type :=
  | UMat (m : Matrix4F)
  | UVec3 (v : Vector3DF)
  | UVec4 (v : Vector4DF)
  | UFlag (b : bool)
  | UTexture (d : texdim) (tex : Z).

(** Modelled from the spec: camera/view state owned by the scene
    (Camera3D, not in this header). *)
Record Camera : Type := {
  cam_view : Matrix4F;
  cam_proj : Matrix4F;
  cam_invview : Matrix4F;
  cam_pos : Vector3DF;
  cam_dims : Vector3DF
}.

(** Modelled from the spec: the scene's light (Light, not in this header). *)
Record Light : Type := { light_pos : Vector3DF; eye_light : bool }.

(** Modelled from the spec: the material of one piece of scene geometry. *)
Record Material : Type := { m_amb : Vector4DF; m_diff : Vector4DF; m_spec : Vector4DF }.

(** Modelled from the spec: the scene (class Scene of gvdb_scene.h) together
    with the graphics context the calls drive.  [registry] is the shader
    registry, [params] maps a program handle to the slots whose uniform the
    program declares, [uniforms] is the uniform store keyed by program and
    slot, [gl_errors] the graphics API's own error queue and [reports] what
    [gchkGL] has reported. *)
Record World : Type := {
  camera : Camera;
  light : Light;
  geometry : list Material;
  registry : list (purpose * Z);
  params : gmap Z (gset Z);
  uniforms : gmap (Z * Z) uval;
  screen_quad : option Z;
  draws : list (Z * Material);
  gl_errors : list (Z * Z);
  reports : list (string * (Z * Z))
}.

Definition set_uniforms (u : gmap (Z * Z) uval) (w : World) : World :=
  {| camera := camera w; light := light w; geometry := geometry w;
     registry := registry w; params := params w;
     uniforms := u; screen_quad := screen_quad w; draws := draws w;
     gl_errors := gl_errors w; reports := reports w |}.

Definition set_gl_errors (e : list (Z * Z)) (w : World) : World :=
  {| camera := camera w; light := light w; geometry := geometry w;
     registry := registry w; params := params w;
     uniforms := uniforms w; screen_quad := screen_quad w; draws := draws w;
     gl_errors := e; reports := reports w |}.

Definition set_reports (r : list (string * (Z * Z))) (w : World) : World :=
  {| camera := camera w; light := light w; geometry := geometry w;
     registry := registry w; params := params w;
     uniforms := uniforms w; screen_quad := screen_quad w; draws := draws w;
     gl_errors := gl_errors w; reports := r |}.

Definition set_screen_quad (q : option Z) (w : World) : World :=
  {| camera := camera w; light := light w; geometry := geometry w;
     registry := registry w; params := params w;
     uniforms := uniforms w; screen_quad := q; draws := draws w;
     gl_errors := gl_errors w; reports := reports w |}.

Definition set_draws (d : list (Z * Material)) (w : World) : World :=
  {| camera := camera w; light := light w; geometry := geometry w;
     registry := registry w; params := params w;
     uniforms := uniforms w; screen_quad := screen_quad w; draws := d;
     gl_errors := gl_errors w; reports := reports w |}.

(** Does program [prog] declare the uniform of slot [slot]? *)
Definition declares (w : World) (prog slot : Z) : bool :=
  bool_decide (slot ∈ default ∅ (params w !! prog)).

(** Modelled from the spec: one uniform upload by the graphics binding.  A
    uniform the program lacks is "silently ignored or logged by the
    underlying graphics binding" (section 4.1): the store is left alone and
    the failure goes to the API's error queue. *)
Definition upload (prog : Z) (w : World) (b : Z * uval) : World :=
  if declares w prog b.1
  then set_uniforms (<[(prog, b.1) := b.2]> (uniforms w)) w
  else set_gl_errors (gl_errors w ++ [(prog, b.1)]) w.

Definition upload_all (prog : Z) (bs : list (Z * uval)) (w : World) : World :=
  foldl (upload prog) w bs.

(** Modelled from the spec: gchkGL (body not in gvdb_render.h) "checks the current
    graphics error state and reports failures tagged with msg". *)
Definition gchkGL (msg : string) (w : World) : World :=
  set_reports (reports w ++ ((fun e => (msg, e)) <$> gl_errors w)) (set_gl_errors [] w).

(** Modelled from the spec: renderCamSetupGL (body not in gvdb_render.h) "writes view,
    projection, inverse-view, camera position/dimensions, and the model
    matrix into slots UVIEW/UPROJ/UINVVIEW/UCAMPOS/UCAMDIMS/UMODEL". *)
Definition renderCamSetupGL (scene : World) (prog : Z) (model : Matrix4F) : World :=
  upload_all prog
    [ (UVIEW, UMat (cam_view (camera scene)));
      (UPROJ, UMat (cam_proj (camera scene)));
      (UINVVIEW, UMat (cam_invview (camera scene)));
      (UCAMPOS, UVec3 (cam_pos (camera scene)));
      (UCAMDIMS, UVec3 (cam_dims (camera scene)));
      (UMODEL, UMat model) ] scene.

(** Modelled from the spec: renderLightSetupGL (body not in gvdb_render.h) "writes
    light position and eye-light flag (ULIGHTPOS, UEYELIGHT)". *)
Definition renderLightSetupGL (scene : World) (prog : Z) : World :=
  upload_all prog
    [ (ULIGHTPOS, UVec3 (light_pos (light scene)));
      (UEYELIGHT, UFlag (eye_light (light scene))) ] scene.

(** Modelled from the spec: renderSetTex3D (body not in gvdb_render.h) "binds a
    texture resource to slot UTEX, and for the 3-D form also uploads its
    resolution to UTEXRES". *)
Definition renderSetTex3D (scene : World) (prog : Z) (tex : Z) (res : Vector3DF) : World :=
  upload_all prog [ (UTEX, UTexture Tex3D tex); (UTEXRES, UVec3 res) ] scene.

(** Modelled from the spec: renderSetTex2D (body not in gvdb_render.h) "binds a
    texture resource to slot UTEX". *)
Definition renderSetTex2D (scene : World) (prog : Z) (tex : Z) : World :=
  upload_all prog [ (UTEX, UTexture Tex2D tex) ] scene.

(** Modelled from the spec: renderSetMaterialGL (body not in gvdb_render.h) "uploads
    ambient/diffuse/specular color vectors to UCLRAMB/UCLRDIFF/UCLRSPEC". *)
Definition renderSetMaterialGL (scene : World) (prog : Z) (amb diff spec : Vector4DF) : World :=
  upload_all prog
    [ (UCLRAMB, UVec4 amb); (UCLRDIFF, UVec4 diff); (UCLRSPEC, UVec4 spec) ] scene.

(** Modelled from the spec: renderSetUW (body not in gvdb_render.h) "uploads a
    combined model/volume-scale uniform pair (UOVERTEX/UOVERSIZE)". *)
Definition renderSetUW (scene : World) (prog : Z) (model : Matrix4F) (res : Vector3DF) : World :=
  upload_all prog [ (UOVERTEX, UMat model); (UOVERSIZE, UVec3 res) ] scene.

(** Modelled from the spec: renderScreenspaceGL (body not in gvdb_render.h)
    "configures full-screen-quad rendering state"; the specification names
    no uniform slot for it. *)
Definition renderScreenspaceGL (scene : World) (prog : Z) : World :=
  set_screen_quad (Some prog) scene.

(** Modelled from the spec: one draw call of renderSceneGL for one piece of
    geometry; with [bMat] the material uniforms are rebound first. *)
Definition draw_one (prog : Z) (bMat : bool) (w : World) (m : Material) : World :=
  let w1 := if bMat then renderSetMaterialGL w prog (m_amb m) (m_diff m) (m_spec m) else w in
  set_draws (draws w1 ++ [(prog, m)]) w1.

(** Modelled from the spec: renderSceneGL with the [bMat] argument
    (body not in gvdb_render.h) "issues the draw call(s) for the scene's current
    geometry; overload with bMat toggles whether material uniforms are
    rebound before drawing". *)
Definition renderSceneGL (scene : World) (prog : Z) (bMat : bool) : World :=
  foldl (draw_one prog bMat) scene (geometry scene).

End Model.

Arguments uval : clear implicits.
Arguments Camera : clear implicits.
Arguments Light : clear implicits.
Arguments Material : clear implicits.
Arguments World : clear implicits.

End Render.

(** ** A concrete scene

    Matrices and vectors are opaque to the interface, so integers stand in
    for them here.  Program 1 declares the camera and texture slots but no
    material or volume-scale uniform; program 2 declares the material and
    volume-scale slots. *)

Module Demo.
Import Render.

Definition camera0 : Camera Z Z :=
  {| cam_view := 1; cam_proj := 2; cam_invview := 3; cam_pos := 4; cam_dims := 5 |}.

Definition light0 : Light Z := {| light_pos := 6; eye_light := true |}.

Definition steel : Material Z := {| m_amb := 10; m_diff := 11; m_spec := 12 |}.
Definition glass : Material Z := {| m_amb := 20; m_diff := 21; m_spec := 22 |}.

Definition world0 : World Z Z Z :=
  {| camera := camera0; light := light0; geometry := [steel; glass];
     registry := [(PSimple, 1); (PRaycast, 2)];
     params := {[ 1 := {[ UVIEW; UPROJ; UMODEL; UTEX; UTEXRES ]};
                  2 := {[ UCLRAMB; UCLRDIFF; UCLRSPEC; UW; UOVERTEX; UOVERSIZE ]} ]};
     uniforms := ∅; screen_quad := None; draws := [];
     gl_errors := []; reports := [] |}.

End Demo.

(** * Properties of the header *)

Module HeaderFacts.
Import Header.

Ltac by_computation := vm_compute; first [ reflexivity | exact I ].

(** Preprocessing the header depends on the flags only through
    [BUILD_OPENGL]: the macros are always the same, the prototypes are
    either all there or all gone. *)
Lemma cpp_line_IfDef (flags : gset string) (flag : string) (body : list line)
    (u : unit_decls) :
  cpp_line flags (IfDef flag body) u =
    if is_defined flags u flag
    then foldl (fun acc l => cpp_line flags l acc) u body else u.
Proof. reflexivity. Qed.

Lemma cpp_before_guard (flags : gset string) :
  foldl (fun acc l => cpp_line flags l acc) no_decls
        ([ PragmaOnce; Include false "gvdb_vec.h"; Include false "gvdb_scene.h";
           UsingNamespace "nvdb" ] ++ slot_defines)
  = Decls (zip slot_names uniform_slots) [] common_directives.
Proof. by_computation. Qed.

Lemma BUILD_OPENGL_not_a_slot :
  bool_decide ("BUILD_OPENGL" ∈ (zip slot_names uniform_slots).*1) = false.
Proof. by_computation. Qed.

Lemma cpp_inside_guard (flags : gset string) :
  foldl (fun acc l => cpp_line flags l acc)
        (Decls (zip slot_names uniform_slots) [] common_directives) opengl_section
  = Decls (zip slot_names uniform_slots) (interface opengl_build)
          (common_directives ++ opengl_directives).
Proof. by_computation. Qed.

Lemma cpp_gvdb_render_h (flags : gset string) :
  cpp flags gvdb_render_h =
    Decls (zip slot_names uniform_slots)
          (if bool_decide ("BUILD_OPENGL" ∈ flags) then interface opengl_build else [])
          (common_directives
           ++ if bool_decide ("BUILD_OPENGL" ∈ flags) then opengl_directives else []).
Proof.
  unfold cpp, gvdb_render_h.
  rewrite (assoc_L (++)), foldl_snoc, cpp_before_guard, cpp_line_IfDef.
  unfold is_defined. cbn [macros]. rewrite BUILD_OPENGL_not_a_slot, orb_false_r.
  destruct (bool_decide ("BUILD_OPENGL" ∈ flags)).
  - apply cpp_inside_guard.
  - by rewrite app_nil_r.
Qed.

Lemma interface_flags (flags : gset string) :
  interface flags =
    if bool_decide ("BUILD_OPENGL" ∈ flags) then interface opengl_build else [].
Proof. unfold interface at 1. by rewrite cpp_gvdb_render_h. Qed.

Lemma slot_macros_flags (flags : gset string) :
  slot_macros flags = zip slot_names uniform_slots.
Proof. unfold slot_macros. by rewrite cpp_gvdb_render_h. Qed.

Lemma Forall_interface (P : fdecl -> Prop) (flags : gset string) :
  Forall P (interface opengl_build) -> Forall P (interface flags).
Proof.
  intros H. rewrite interface_flags. by destruct (bool_decide _).
Qed.

(** ** C1 *)

(** C1: the 23 uniform slot macros UVIEW, UPROJ, ..., UTEXMAX take the
    consecutive values 0 through 22 in the order of their definition; they
    are pairwise distinct, UVIEW is 0 and UTEXMAX is 22.  These are the
    macros a translation unit gets from the header under any flags. *)
Theorem uniform_slots_enumeration :
  uniform_slots = seqZ 0 23
  ∧ NoDup uniform_slots
  ∧ UVIEW = 0 ∧ UTEXMAX = 22
  ∧ length uniform_slots = 23%nat
  ∧ ∀ flags, slot_macros flags = zip slot_names (seqZ 0 23).
Proof.
  split; [by_computation|].
  split; [apply (bool_decide_unpack _); by_computation|].
  do 3 (split; [reflexivity|]).
  intros flags. by rewrite slot_macros_flags.
Qed.

(** ** C2 *)

(** C2: every function the header declares - gchkGL, the render setup
    functions and the seven factories - has return type void, whatever the
    build flags. *)
Theorem interface_returns_void :
  names (interface opengl_build) =
    [ "gchkGL"; "renderCamSetupGL"; "renderLightSetupGL"; "renderSceneGL";
      "renderSceneGL"; "renderSetTex3D"; "renderSetTex2D"; "renderSetMaterialGL";
      "renderSetUW"; "renderScreenspaceGL"; "makeSimpleShaderGL"; "makeSliceShader";
      "makeOutlineShader"; "makeVoxelizeShader"; "makeRaycastShader";
      "makeInstanceShader"; "makeScreenShader" ]
  ∧ ∀ flags, Forall (fun d => f_ret d = TVoid) (interface flags).
Proof.
  split; [by_computation|].
  intros flags. apply Forall_interface.
  vm_compute. repeat constructor.
Qed.

(** ** C3 *)


(** ** C9 *)

(** C9: the prototypes are declared only under BUILD_OPENGL.  With the flag
    all 17 prototypes (gchkGL, nine render setup prototypes, seven
    factories) are present; without it none is, and all the header still
    defines is the 23 slot macros, which are there in both cases (next to
    the pragma, the two project includes and the using-directive, which
    declare nothing of their own). *)
Theorem interface_guarded_by_BUILD_OPENGL (flags : gset string) :
  interface flags =
    (if bool_decide ("BUILD_OPENGL" ∈ flags) then interface opengl_build else [])
  ∧ length (interface opengl_build) = 17%nat
  ∧ names (interface opengl_build) =
      (["gchkGL"]
       ++ [ "renderCamSetupGL"; "renderLightSetupGL"; "renderSceneGL"; "renderSceneGL";
            "renderSetTex3D"; "renderSetTex2D"; "renderSetMaterialGL"; "renderSetUW";
            "renderScreenspaceGL" ]
       ++ names (factories (interface opengl_build)))%list
  ∧ interface ∅ = []
  ∧ cpp flags gvdb_render_h =
      Decls (zip slot_names uniform_slots) (interface flags)
            (common_directives
             ++ if bool_decide ("BUILD_OPENGL" ∈ flags) then opengl_directives else [])
  ∧ cpp ∅ gvdb_render_h = Decls (zip slot_names uniform_slots) [] common_directives.
Proof.
  split; [apply interface_flags|].
  split; [by_computation|].
  split; [by_computation|].
  split; [by_computation|].
  split; [|by_computation].
  by rewrite cpp_gvdb_render_h, (interface_flags flags).
Qed.

(** ** C10 *)

(** C10: renderCamSetupGL and renderSetUW take the model matrix as a
    Matrix4F pointer, and the prototypes carry nothing else about it: a call
    that passes a null pointer for [model] is accepted by the interface. *)
Theorem model_matrix_may_be_null :
  decl_named (interface opengl_build) "renderCamSetupGL" =
    [ FDecl true TVoid "renderCamSetupGL"
        [ Param scene_ptr "scene"; Param TInt "prog"; Param (TPtr (TNamed "Matrix4F")) "model" ] ]
  ∧ decl_named (interface opengl_build) "renderSetUW" =
    [ FDecl true TVoid "renderSetUW"
        [ Param scene_ptr "scene"; Param TInt "prog"; Param (TPtr (TNamed "Matrix4F")) "model";
          Param (TNamed "Vector3DF") "res" ] ]
  ∧ (∀ scene prog,
       accepts (interface opengl_build) "renderCamSetupGL"
         [VPtr scene; VInt prog; nullptr] = true)
  ∧ (∀ scene prog,
       accepts (interface opengl_build) "renderSetUW"
         [VPtr scene; VInt prog; nullptr; VObj "Vector3DF"] = true).
Proof.
  split; [by_computation|]. split; [by_computation|].
  split; intros scene prog; by_computation.
Qed.

End HeaderFacts.

(** * Properties of the behaviour model *)

Module RenderFacts.
Import Render.

Section Uploads.

Context {Matrix4F Vector3DF Vector4DF : Type}.
Abbreviation World := (Render.World Matrix4F Vector3DF Vector4DF).
Abbreviation uval := (Render.uval Matrix4F Vector3DF Vector4DF).
Implicit Types (w : World) (prog p s : Z) (v : uval) (bs : list (Z * uval)).

(** *** One upload *)

Lemma declares_upload prog w b p s :
  declares (upload prog w b) p s = declares w p s.
Proof. unfold upload. by destruct (declares w prog b.1). Qed.

Lemma uniforms_upload prog w s v p s' :
  uniforms (upload prog w (s, v)) !! (p, s') =
    if declares w prog s && bool_decide ((p, s') = (prog, s))
    then Some v else uniforms w !! (p, s').
Proof.
  unfold upload; cbn [fst snd].
  destruct (declares w prog s); cbn; [|done].
  case_bool_decide as E.
  - rewrite E. apply lookup_insert_eq.
  - by apply lookup_insert_ne.
Qed.

Lemma gl_errors_upload prog w s v :
  gl_errors (upload prog w (s, v)) =
    gl_errors w ++ (if declares w prog s then [] else [(prog, s)]).
Proof.
  unfold upload; cbn [fst snd].
  destruct (declares w prog s); cbn; [by rewrite app_nil_r|done].
Qed.

(** *** A batch of uploads *)

Lemma upload_all_cons prog b bs w :
  upload_all prog (b :: bs) w = upload_all prog bs (upload prog w b).
Proof. reflexivity. Qed.

Lemma declares_upload_all prog bs w p s :
  declares (upload_all prog bs w) p s = declares w p s.
Proof.
  revert w. induction bs as [|b bs IH]; intros w; [done|].
  by rewrite upload_all_cons, IH, declares_upload.
Qed.

(** A slot the batch does not mention, or another program, is left alone. *)
Lemma uniforms_upload_all_other prog bs w p s :
  p ≠ prog ∨ s ∉ bs.*1 ->
  uniforms (upload_all prog bs w) !! (p, s) = uniforms w !! (p, s).
Proof.
  revert w. induction bs as [|[s' v] bs IH]; intros w H; [done|].
  rewrite upload_all_cons, IH, uniforms_upload.
  - case_bool_decide as E; [|by rewrite andb_false_r].
    injection E as -> ->. destruct H as [H|H]; [done|].
    exfalso. apply H. cbn. apply elem_of_cons. by left.
  - destruct H as [H|H]; [by left|right].
    intros Hin. apply H. cbn. apply elem_of_cons. by right.
Qed.

(** A slot the program does not declare is left alone as well. *)
Lemma uniforms_upload_all_absent prog bs w s :
  declares w prog s = false ->
  uniforms (upload_all prog bs w) !! (prog, s) = uniforms w !! (prog, s).
Proof.
  revert w. induction bs as [|[s' v] bs IH]; intros w H; [done|].
  rewrite upload_all_cons, IH, uniforms_upload.
  - destruct (declares w prog s') eqn:D; [|done].
    case_bool_decide as E; [|done]. injection E as ->. congruence.
  - by rewrite declares_upload.
Qed.

(** A declared slot holds the value the batch gives it. *)
Lemma uniforms_upload_all_present prog bs w s v :
  NoDup bs.*1 -> (s, v) ∈ bs -> declares w prog s = true ->
  uniforms (upload_all prog bs w) !! (prog, s) = Some v.
Proof.
  revert w. induction bs as [|[s' v'] bs IH]; intros w Hnd Hin D.
  - by apply elem_of_nil in Hin.
  - cbn in Hnd. apply NoDup_cons in Hnd as [Hs' Hnd].
    rewrite upload_all_cons.
    apply elem_of_cons in Hin as [Heq|Hin].
    + injection Heq as <- <-.
      rewrite uniforms_upload_all_other by (by right).
      rewrite uniforms_upload, D. by rewrite bool_decide_eq_true_2.
    + apply IH; [done|done|by rewrite declares_upload].
Qed.

Lemma uniforms_upload_all prog bs w s v :
  NoDup bs.*1 -> (s, v) ∈ bs ->
  uniforms (upload_all prog bs w) !! (prog, s) =
    if declares w prog s then Some v else uniforms w !! (prog, s).
Proof.
  intros Hnd Hin. destruct (declares w prog s) eqn:D.
  - by apply uniforms_upload_all_present.
  - by apply uniforms_upload_all_absent.
Qed.

(** The error queue grows by one entry per slot the program lacks. *)
Lemma gl_errors_upload_all prog bs w :
  gl_errors (upload_all prog bs w) =
    gl_errors w
    ++ ((fun s => (prog, s)) <$> filter (fun s => declares w prog s = false) bs.*1).
Proof.
  revert w. induction bs as [|[s' v] bs IH]; intros w.
  - cbn. by rewrite app_nil_r.
  - rewrite upload_all_cons, IH, gl_errors_upload. cbn [fmap list_fmap fst].
    rewrite <- (assoc_L (++)). f_equal.
    rewrite (list_filter_iff _ (fun s => declares w prog s = false))
      by (intros s; by rewrite declares_upload).
    rewrite filter_cons. destruct (declares w prog s') eqn:D.
    + by rewrite decide_False.
    + by rewrite decide_True.
Qed.

(** Uploads do not touch the scene, the registry or the draw list. *)
Lemma upload_frame prog w b :
  registry (upload prog w b) = registry w
  ∧ params (upload prog w b) = params w
  ∧ draws (upload prog w b) = draws w
  ∧ geometry (upload prog w b) = geometry w.
Proof. unfold upload. by destruct (declares w prog b.1). Qed.

Lemma upload_all_frame prog bs w :
  registry (upload_all prog bs w) = registry w
  ∧ params (upload_all prog bs w) = params w
  ∧ draws (upload_all prog bs w) = draws w
  ∧ geometry (upload_all prog bs w) = geometry w.
Proof.
  revert w. induction bs as [|b bs IH]; intros w; [done|].
  rewrite upload_all_cons.
  destruct (IH (upload prog w b)) as (-> & -> & -> & ->).
  apply upload_frame.
Qed.

(** *** Drawing without rebinding materials *)

Lemma draw_one_false prog w m :
  uniforms (draw_one prog false w m) = uniforms w
  ∧ gl_errors (draw_one prog false w m) = gl_errors w
  ∧ draws (draw_one prog false w m) = draws w ++ [(prog, m)].
Proof. done. Qed.

Lemma foldl_draw_one_false prog (ms : list (Material Vector4DF)) w :
  uniforms (foldl (draw_one prog false) w ms) = uniforms w
  ∧ gl_errors (foldl (draw_one prog false) w ms) = gl_errors w
  ∧ draws (foldl (draw_one prog false) w ms) = draws w ++ ((fun m => (prog, m)) <$> ms).
Proof.
  revert w. induction ms as [|m ms IH]; intros w; cbn [foldl].
  - cbn. by rewrite app_nil_r.
  - destruct (IH (draw_one prog false w m)) as (-> & -> & ->).
    destruct (draw_one_false prog w m) as (-> & -> & ->).
    by rewrite <- (assoc_L (++)).
Qed.

(** ** C4 *)

(** C4: renderSetTex3D takes a Vector3DF resolution after scene, program
    and texture, and renderSetTex2D takes no such argument.  Both put the
    texture in slot UTEX of the program; renderSetTex3D also puts the
    resolution in slot UTEXRES, renderSetTex2D writes no other slot than
    UTEX.  (A slot is written when the program declares its uniform.) *)
Theorem tex3D_uploads_resolution_tex2D_only_binds w prog tex (res : Vector3DF) :
  (fun d => Header.p_type <$> Header.f_params d)
     <$> Header.decl_named (Header.interface Header.opengl_build) "renderSetTex3D"
    = [ [Header.scene_ptr; Header.TInt; Header.TInt; Header.TNamed "Vector3DF"] ]
  ∧ (fun d => Header.p_type <$> Header.f_params d)
      <$> Header.decl_named (Header.interface Header.opengl_build) "renderSetTex2D"
    = [ [Header.scene_ptr; Header.TInt; Header.TInt] ]
  ∧ uniforms (renderSetTex3D w prog tex res) !! (prog, UTEX) =
      (if declares w prog UTEX then Some (UTexture Tex3D tex)
       else uniforms w !! (prog, UTEX))
  ∧ uniforms (renderSetTex3D w prog tex res) !! (prog, UTEXRES) =
      (if declares w prog UTEXRES then Some (UVec3 res)
       else uniforms w !! (prog, UTEXRES))
  ∧ (∀ p s, uniforms (renderSetTex2D w prog tex) !! (p, s) =
      if declares w prog UTEX && bool_decide ((p, s) = (prog, UTEX))
      then Some (UTexture Tex2D tex) else uniforms w !! (p, s))
  ∧ uniforms (renderSetTex2D w prog tex) !! (prog, UTEXRES) = uniforms w !! (prog, UTEXRES).
Proof.
  split; [vm_compute; reflexivity|]. split; [vm_compute; reflexivity|].
  split; [|split; [|split]].
  - apply uniforms_upload_all; [apply (bool_decide_unpack _); vm_compute; exact I|].
    apply elem_of_cons; by left.
  - apply uniforms_upload_all; [apply (bool_decide_unpack _); vm_compute; exact I|].
    apply elem_of_cons; right. apply elem_of_cons; by left.
  - intros p s. apply (uniforms_upload prog w UTEX).
  - apply uniforms_upload_all_other. right. cbn.
    intros H. apply (bool_decide_pack _) in H. by vm_compute in H.
Qed.

(** ** C7 *)

(** C7: renderSceneGL(scene, program, false) issues its draw calls and
    leaves the whole uniform store as it was.  In particular, after
    renderSetMaterialGL the slots UCLRAMB, UCLRDIFF and UCLRSPEC still hold
    the colours that call bound. *)
Theorem renderSceneGL_false_keeps_material w prog (amb diff spec : Vector4DF) :
  uniforms (renderSceneGL (renderSetMaterialGL w prog amb diff spec) prog false)
    = uniforms (renderSetMaterialGL w prog amb diff spec)
  ∧ uniforms (renderSceneGL (renderSetMaterialGL w prog amb diff spec) prog false)
      !! (prog, UCLRAMB)
    = (if declares w prog UCLRAMB then Some (UVec4 amb) else uniforms w !! (prog, UCLRAMB))
  ∧ uniforms (renderSceneGL (renderSetMaterialGL w prog amb diff spec) prog false)
      !! (prog, UCLRDIFF)
    = (if declares w prog UCLRDIFF then Some (UVec4 diff) else uniforms w !! (prog, UCLRDIFF))
  ∧ uniforms (renderSceneGL (renderSetMaterialGL w prog amb diff spec) prog false)
      !! (prog, UCLRSPEC)
    = (if declares w prog UCLRSPEC then Some (UVec4 spec) else uniforms w !! (prog, UCLRSPEC))
  ∧ draws (renderSceneGL (renderSetMaterialGL w prog amb diff spec) prog false)
    = draws w ++ ((fun m => (prog, m)) <$> geometry w).
Proof.
  unfold renderSceneGL.
  destruct (foldl_draw_one_false prog
              (geometry (renderSetMaterialGL w prog amb diff spec))
              (renderSetMaterialGL w prog amb diff spec)) as (-> & _ & ->).
  unfold renderSetMaterialGL.
  match goal with
  | |- context [upload_all prog ?bs w] =>
      destruct (upload_all_frame prog bs w) as (_ & _ & -> & ->);
      assert (NoDup bs.*1) as Hnd by (apply (bool_decide_unpack _); vm_compute; exact I)
  end.
  repeat split; apply uniforms_upload_all; try done;
    repeat first [ apply list_elem_of_here | apply list_elem_of_further ].
Qed.

(** ** C8 *)

(** C8: renderSetUW puts the model matrix in slot UOVERTEX (16) and the
    volume scale in slot UOVERSIZE (17); slot UW (12) is written for no
    program and no diagnostic is raised for it. *)
Theorem renderSetUW_writes_overtex_oversize
    w prog (model : Matrix4F) (res : Vector3DF) :
  UOVERTEX = 16 ∧ UOVERSIZE = 17 ∧ UW = 12
  ∧ uniforms (renderSetUW w prog model res) !! (prog, UOVERTEX) =
      (if declares w prog UOVERTEX then Some (UMat model)
       else uniforms w !! (prog, UOVERTEX))
  ∧ uniforms (renderSetUW w prog model res) !! (prog, UOVERSIZE) =
      (if declares w prog UOVERSIZE then Some (UVec3 res)
       else uniforms w !! (prog, UOVERSIZE))
  ∧ (∀ p, uniforms (renderSetUW w prog model res) !! (p, UW) = uniforms w !! (p, UW))
  ∧ gl_errors (renderSetUW w prog model res) =
      gl_errors w
      ++ ((fun s => (prog, s))
            <$> filter (fun s => declares w prog s = false) [UOVERTEX; UOVERSIZE]).
Proof.
  do 3 (split; [reflexivity|]).
  unfold renderSetUW.
  match goal with
  | |- context [upload_all prog ?bs w] =>
      assert (NoDup bs.*1) as Hnd by (apply (bool_decide_unpack _); vm_compute; exact I)
  end.
  split; [|split; [|split]].
  - apply uniforms_upload_all; [done|apply list_elem_of_here].
  - apply uniforms_upload_all; [done|apply list_elem_of_further, list_elem_of_here].
  - intros p. apply uniforms_upload_all_other. right. cbn.
    intros H. apply (bool_decide_pack _) in H. by vm_compute in H.
  - apply gl_errors_upload_all.
Qed.

End Uploads.

(** *** The concrete scene *)

Import Demo.

Example renderSetUW_on_program_2 :
  uniforms (renderSetUW world0 2 7 8) !! (2, UOVERTEX) = Some (UMat 7)
  ∧ uniforms (renderSetUW world0 2 7 8) !! (2, UOVERSIZE) = Some (UVec3 8)
  ∧ uniforms (renderSetUW world0 2 7 8) !! (2, UW) = None
  ∧ gl_errors (renderSetUW world0 2 7 8) = [].
Proof. repeat split; vm_compute; reflexivity. Qed.

Example renderSetUW_on_program_1 :
  uniforms (renderSetUW world0 1 7 8) !! (1, UOVERTEX) = None
  ∧ gl_errors (renderSetUW world0 1 7 8) = [(1, 16); (1, 17)]
  ∧ reports (gchkGL "renderSetUW" (renderSetUW world0 1 7 8))
    = [("renderSetUW", (1, 16)); ("renderSetUW", (1, 17))].
Proof. repeat split; vm_compute; reflexivity. Qed.

Example renderSetTex3D_on_program_1 :
  uniforms (renderSetTex3D world0 1 42 9) !! (1, UTEX) = Some (UTexture Tex3D 42)
  ∧ uniforms (renderSetTex3D world0 1 42 9) !! (1, UTEXRES) = Some (UVec3 9)
  ∧ uniforms (renderSetTex2D world0 1 42) !! (1, UTEX) = Some (UTexture Tex2D 42)
  ∧ uniforms (renderSetTex2D world0 1 42) !! (1, UTEXRES) = None.
Proof. repeat split; vm_compute; reflexivity. Qed.

(** With [bMat] the draw calls do rebind the material: the last piece of
    geometry drawn leaves its colours in the material slots. *)
Example renderSceneGL_true_rebinds :
  uniforms (renderSceneGL (renderSetMaterialGL world0 2 1 2 3) 2 true) !! (2, UCLRAMB)
    = Some (UVec4 20)
  ∧ uniforms (renderSceneGL (renderSetMaterialGL world0 2 1 2 3) 2 false) !! (2, UCLRAMB)
    = Some (UVec4 1)
  ∧ draws (renderSceneGL world0 2 false) = [(2, steel); (2, glass)].
Proof. repeat split; vm_compute; reflexivity. Qed.

End RenderFacts.

(** * Further properties of the header *)

Module InterfaceFacts.
Import Header HeaderFacts.

(** ** Generic list facts *)

Lemma filter_none {A} (P : A -> Prop) `{!∀ x, Decision (P x)} (l : list A) :
  Forall (fun x => ¬ P x) l -> filter P l = [].
Proof.
  induction 1 as [|x l Hx _ IH]; [done|].
  by rewrite filter_cons_False.
Qed.

Lemma filter_length_mono {A} (P Q : A -> Prop)
    `{!∀ x, Decision (P x)} `{!∀ x, Decision (Q x)} (l : list A) :
  (∀ x, P x -> Q x) -> (length (filter P l) ≤ length (filter Q l))%nat.
Proof.
  intros HPQ. induction l as [|x l IH]; [done|].
  rewrite !filter_cons. destruct (decide (P x)) as [HP|HP].
  - rewrite decide_True by auto. cbn. lia.
  - destruct (decide (Q x)); cbn; lia.
Qed.

Lemma filter_key_unique {A K} `{EqDecision K} (f : A -> K) (k : K) (l : list A) :
  NoDup (f <$> l) -> (length (filter (fun x => f x = k) l) ≤ 1)%nat.
Proof.
  induction l as [|x l IH]; [cbn; lia|].
  cbn [fmap list_fmap]. intros [Hx Hnd]%NoDup_cons.
  rewrite filter_cons. destruct (decide (f x = k)) as [Hk|Hk]; [|by apply IH].
  rewrite filter_none; [cbn; lia|].
  apply Forall_forall. intros y Hy Hyk. apply Hx.
  rewrite Hk, <- Hyk. by apply list_elem_of_fmap_2.
Qed.

(** ** Typing of argument lists *)

Lemma args_ok_length (ps : list param) (args : list cval) :
  args_ok ps args = true -> length args = length ps.
Proof.
  revert args. induction ps as [|p ps IH]; intros [|v args]; cbn; try done.
  intros [_ H]%andb_true_iff. f_equal. by apply IH.
Qed.

Lemma args_ok_insert (ps : list param) (args : list cval) (i : nat) (p : param) (v : cval) :
  args_ok ps args = true -> ps !! i = Some p ->
  args_ok ps (<[i := v]> args) = has_type v (p_type p).
Proof.
  revert args i. induction ps as [|q ps IH]; intros [|a args] i; cbn; try done.
  intros [Ha Hargs]%andb_true_iff. destruct i as [|i]; cbn.
  - intros [= ->]. by rewrite Hargs, andb_true_r.
  - intros Hp. rewrite Ha. by apply IH.
Qed.

(** ** Macro lookup *)

Lemma lookup_macro_elem (name : string) (v : Z) (ms : list (string * Z)) :
  NoDup ms.*1 -> lookup_macro name ms = Some v ↔ (name, v) ∈ ms.
Proof.
  intros Hnd. revert v. induction ms as [|[n w] ms IH]; intros v; cbn [lookup_macro].
  - split; [done|]. by intros ?%elem_of_nil.
  - cbn [fmap list_fmap fst] in Hnd. apply NoDup_cons in Hnd as [Hn Hnd].
    specialize (IH Hnd). rewrite elem_of_cons.
    destruct (lookup_macro name ms) as [v'|] eqn:E.
    + assert ((name, v') ∈ ms) as Hv' by (by apply IH).
      split.
      * intros [= <-]. by right.
      * intros [Heq|Hin].
        -- injection Heq as Hname _. exfalso. apply Hn. rewrite <- Hname.
           apply (list_elem_of_fmap_2 fst _ (name, v')), Hv'.
        -- apply IH in Hin. congruence.
    + destruct (decide (n = name)) as [Hname|Hname].
      * split.
        -- intros [= <-]. left. by rewrite Hname.
        -- intros [Heq|Hin]; [congruence|]. apply IH in Hin. congruence.
      * split; [done|]. intros [Heq|Hin]; [congruence|].
        apply IH in Hin. congruence.
Qed.

Lemma elem_of_zip_seqZ {A} (names : list A) (x : A) (v : Z) :
  (x, v) ∈ zip names (seqZ 0 (Z.of_nat (length names)))
  ↔ (0 ≤ v)%Z ∧ names !! Z.to_nat v = Some x.
Proof.
  rewrite list_elem_of_lookup. split.
  - intros [j Hj]. apply lookup_zip_with_Some in Hj as (a & b & [= <- <-] & Ha & Hs).
    apply lookup_seqZ in Hs as [-> _].
    split; [lia|]. by rewrite Z.add_0_l, Nat2Z.id.
  - intros [Hv Hx]. exists (Z.to_nat v). apply lookup_zip_with_Some.
    exists x, v. split; [done|]. split; [done|]. apply lookup_seqZ.
    apply lookup_lt_Some in Hx. lia.
Qed.

(** ** X1 *)

(** X1: the names the header defines are exactly the 23 slot macros, and
    each has its position in the order of definition as value: [name] is
    given the value [v] by the header exactly when [v] is not negative and
    [name] is the [v]-th macro of lines 14-36 (counting from 0); a name has
    a value at all exactly when it is one of the 23.  So names and indices
    0..22 correspond one to one and the header defines nothing else. *)
Theorem macro_value_is_position (flags : gset string) (name : string) (v : Z) :
  (macro_value (cpp flags gvdb_render_h) name = Some v
   ↔ (0 ≤ v)%Z ∧ slot_names !! Z.to_nat v = Some name)
  ∧ (is_Some (macro_value (cpp flags gvdb_render_h) name) ↔ name ∈ slot_names)
  ∧ length (macros (cpp flags gvdb_render_h)) = 23%nat.
Proof.
  unfold macro_value. fold (slot_macros flags). rewrite slot_macros_flags.
  assert (∀ w, lookup_macro name (zip slot_names uniform_slots) = Some w
               ↔ (0 ≤ w)%Z ∧ slot_names !! Z.to_nat w = Some name) as Hpos.
  { intros w.
    rewrite lookup_macro_elem by (apply (bool_decide_unpack _); by_computation).
    apply (elem_of_zip_seqZ slot_names). }
  split; [apply Hpos|]. split; [|by_computation].
  rewrite list_elem_of_lookup. split.
  - intros [w Hw]. apply Hpos in Hw as [_ Hw]. eauto.
  - intros [i Hi]. exists (Z.of_nat i). apply Hpos.
    split; [lia|]. by rewrite Nat2Z.id.
Qed.

(** ** X2 *)

(** X2: no two prototypes of the header share both name and parameter
    count, so a call resolves to at most one of them whatever its name and
    arguments; the two renderSceneGL overloads differ in arity. *)
Theorem call_resolves_to_at_most_one_prototype
    (flags : gset string) (name : string) (args : list cval) :
  NoDup (signature <$> interface flags)
  ∧ (length (candidates (interface flags) name args) ≤ 1)%nat
  ∧ signature <$> decl_named (interface opengl_build) "renderSceneGL"
    = [("renderSceneGL", 2%nat); ("renderSceneGL", 3%nat)].
Proof.
  assert (NoDup (signature <$> interface flags)) as Hnd.
  { rewrite interface_flags. destruct (bool_decide _); [|constructor].
    apply (bool_decide_unpack _); by_computation. }
  split; [done|]. split; [|by_computation].
  unfold candidates, decl_named. rewrite list_filter_filter.
  etransitivity; [|apply (filter_key_unique signature (name, length args)), Hnd].
  apply filter_length_mono. intros d [Hargs Hname].
  unfold signature. by rewrite Hname, (args_ok_length _ _ Hargs).
Qed.

(** ** X3 *)

(** X3: the prototypes fall into three kinds.  Every render... function
    takes [Scene* scene, int prog] as its first two parameters; every
    factory takes [Scene* scene] first and no [int] at all (it is given no
    program handle); the only other function is gchkGL, which takes the
    message alone.  All of them carry GVDB_API. *)
Theorem prototypes_by_kind (flags : gset string) :
  Forall (fun d =>
      f_api d = true
      ∧ if is_render d
        then take 2 (f_params d) = [Param scene_ptr "scene"; Param TInt "prog"]
        else if is_factory d
        then head (f_params d) = Some (Param scene_ptr "scene")
             ∧ takes TInt d = false
        else d = FDecl true TVoid "gchkGL" [Param cstring "msg"])
    (interface flags)
  ∧ length (filter (fun d => is_render d = true) (interface opengl_build)) = 9%nat.
Proof.
  split; [|by_computation].
  apply Forall_interface.
  set (ds := interface opengl_build). vm_compute in ds. subst ds.
  repeat (apply List.Forall_cons; [vm_compute; by repeat split|]).
  apply List.Forall_nil.
Qed.

(** ** X4 *)

(** X4: the parameters declared with a pointer type are exactly scene,
    model, msg and the shader file names; prog, tex, bMat and the vectors
    res, amb, diff, spec are declared by value.  In a call that
    type-checks, a null pointer may be passed for any of the pointer
    parameters: no prototype protects its scene, matrix or string argument
    against null. *)
Theorem pointer_parameters_admit_null
    (flags : gset string) (d : fdecl) (args : list cval) (i : nat) (p : param) :
  d ∈ interface flags ->
  args_ok (f_params d) args = true ->
  f_params d !! i = Some p ->
  (is_pointer (p_type p) = true ↔ p_name p ∈ pointer_params)
  ∧ (p_name p ∈ pointer_params ->
     args_ok (f_params d) (<[i := nullptr]> args) = true).
Proof.
  intros Hd Hargs Hp.
  assert (Forall (fun d => Forall (fun p =>
            is_pointer (p_type p) = bool_decide (p_name p ∈ pointer_params))
            (f_params d)) (interface flags)) as Htab.
  { apply Forall_interface. vm_compute. repeat constructor. }
  rewrite Forall_forall in Htab. specialize (Htab d Hd).
  rewrite Forall_forall in Htab.
  specialize (Htab p (list_elem_of_lookup_2 _ _ _ Hp)).
  assert (is_pointer (p_type p) = true ↔ p_name p ∈ pointer_params) as Hiff.
  { rewrite Htab. apply bool_decide_eq_true. }
  split; [done|]. intros Hname%Hiff.
  rewrite (args_ok_insert _ _ _ _ _ Hargs Hp).
  by destruct (p_type p).
Qed.

(** The renderSetUW prototype and its model parameter meet the hypotheses. *)
Lemma pointer_parameters_admit_null_witness :
  (is_pointer matrix_ptr = true ↔ "model" ∈ pointer_params)
  ∧ ("model" ∈ pointer_params ->
     args_ok [ Param scene_ptr "scene"; Param TInt "prog"; Param matrix_ptr "model";
               Param (TNamed "Vector3DF") "res" ]
             (<[2%nat := nullptr]> [VPtr (Some 1); VInt 2; VPtr (Some 3); VObj "Vector3DF"])
       = true).
Proof.
  apply (pointer_parameters_admit_null opengl_build
           (FDecl true TVoid "renderSetUW"
              [ Param scene_ptr "scene"; Param TInt "prog"; Param matrix_ptr "model";
                Param (TNamed "Vector3DF") "res" ])
           [VPtr (Some 1); VInt 2; VPtr (Some 3); VObj "Vector3DF"] 2
           (Param matrix_ptr "model")).
  - apply (bool_decide_unpack _). vm_compute. exact I.
  - reflexivity.
  - reflexivity.
Defined.

(** ** X5 *)

(** X5: no token of any prototype (type names, keywords, function and
    parameter names) is one of the slot macro names, nor BUILD_OPENGL, so
    the macros defined at the top of the header never rewrite the
    prototypes below them. *)
Theorem macros_do_not_touch_prototypes (flags : gset string) :
  Forall (fun d => Forall (fun t => t ∉ "BUILD_OPENGL" :: slot_names) (tokens d))
         (interface flags)
  ∧ Forall (fun d => Forall (fun t => macro_value (cpp flags gvdb_render_h) t = None)
                            (tokens d))
           (interface flags).
Proof.
  split.
  - apply Forall_interface. apply (bool_decide_unpack _). by_computation.
  - unfold macro_value. fold (slot_macros flags). rewrite slot_macros_flags.
    apply Forall_interface. apply (bool_decide_unpack _). by_computation.
Qed.

End InterfaceFacts.
